(** * set_pid: device resolution and the PID configuration transaction

    A shallow embedding of [py/stabilizer/set_pid.py].  The script parses its
    command line, optionally resolves the device prefix through
    [miniconf.discover], and then runs the coroutine [configure], which opens
    a Miniconf session and issues one [set] on the channel's PID settings.

    The calls that leave the script (discovery, session creation, the write,
    the unit conversion of the [stabilizer] package, logging) are recorded in
    a trace, in the order in which Python evaluates them; what the network
    answers is read from a [world]. *)

From Stdlib Require Import ZArith QArith String Ascii List Bool Lia.
From Stdlib Require Import DecimalString DecimalZ.
Import ListNotations.

Local Open Scope string_scope.
Local Open Scope list_scope.
Local Open Scope Z_scope.

(** ** The Python values the script handles *)

Module Py.

(** An exception: its class and its message. *)
Record exn : Type := Exn { exn_class : string; exn_msg : string }.

Definition ValueError (msg : string) : exn := Exn "ValueError" msg.
Definition IndexError (msg : string) : exn := Exn "IndexError" msg.

(** [str(n)] of an [int], as an f-string field renders it. *)
Definition str_int (n : Z) : string := NilZero.string_of_int (Z.to_int n).

(** [l.pop()]: the last element and the shortened list. *)
Definition pop {A : Type} (l : list A) : exn + (A * list A) :=
  match rev l with
  | [] => inl (IndexError "pop from empty list")
  | x :: r => inr (x, rev r)
  end.

(** [not l] of a list. *)
Definition is_empty {A : Type} (l : list A) : bool :=
  match l with
  | [] => true
  | _ :: _ => false
  end.

(** [len(l)]. *)
Definition len {A : Type} (l : list A) : Z := Z.of_nat (length l).

(** *** The built-in [repr] on a [str] and on a list of [str]

    A character of a [string] stands for the code point of the same number,
    0 to 255. *)

(** The double quote. *)
Definition dquote : ascii := "034"%char.

(** The single quote. *)
Definition squote : ascii := "'"%char.

(** The backslash. *)
Definition backslash : ascii := "\"%char.

(** The lower-case hexadecimal digit of [n], [n] below 16. *)
Definition hex_digit (n : N) : ascii :=
  match String.get (N.to_nat n) "0123456789abcdef" with
  | Some c => c
  | None => "0"%char
  end.

(** The escape [\xhh] of a character. *)
Definition hex_escape (c : ascii) : string :=
  String backslash
    (String "x"
       (String (hex_digit (N_of_ascii c / 16))
          (String (hex_digit (N_of_ascii c mod 16)) EmptyString))).

(** [str.isprintable] on one character: not a control character, and
    beyond ASCII neither the no-break space nor the soft hyphen. *)
Definition printable (c : ascii) : bool :=
  let n := N_of_ascii c in
  ((32 <=? n) && (n <? 127) || (161 <=? n) && negb (n =? 173))%N.

(** How [repr] writes one character inside the quotes [quote]. *)
Definition repr_char (quote c : ascii) : string :=
  if Ascii.eqb c quote || Ascii.eqb c backslash
  then String backslash (String c EmptyString)
  else if Ascii.eqb c "009" then String backslash (String "t" EmptyString)
  else if Ascii.eqb c "010" then String backslash (String "n" EmptyString)
  else if Ascii.eqb c "013" then String backslash (String "r" EmptyString)
  else if printable c then String c EmptyString
  else hex_escape c.

Fixpoint repr_body (quote : ascii) (s : string) : string :=
  match s with
  | EmptyString => EmptyString
  | String c r => repr_char quote c ++ repr_body quote r
  end.

Fixpoint contains (c : ascii) (s : string) : bool :=
  match s with
  | EmptyString => false
  | String c' r => Ascii.eqb c' c || contains c r
  end.

(** The quotes [repr] puts around [s]: double quotes when [s] has a single
    quote and no double quote, single quotes otherwise. *)
Definition quote_of (s : string) : ascii :=
  if contains squote s && negb (contains dquote s) then dquote else squote.

(** [repr(s)] of a [str]. *)
Definition repr_str (s : string) : string :=
  let q := quote_of s in
  String q (repr_body q s ++ String q EmptyString).

(** [repr(l)] of a list of [str], which is also what an f-string field
    renders for it. *)
Definition repr_list (l : list string) : string :=
  "[" ++ String.concat ", " (map repr_str l) ++ "]".

End Py.

Import Py.

(** ** Reading back what [repr_list] writes *)

Module Reader.

(** Where the reader is in the text: before the bracket, after it, inside
    the quotes of an item (after [acc], with [cur] read so far), inside an
    escape, between items, or past the closing bracket. *)
Inductive state : Type :=
| Start
| Open
| InStr (quote : ascii) (acc : list string) (cur : string)
| Esc (quote : ascii) (acc : list string) (cur : string)
| Hex1 (quote : ascii) (acc : list string) (cur : string)
| Hex2 (quote : ascii) (acc : list string) (cur : string) (high : N)
| AfterItem (acc : list string)
| AfterComma (acc : list string)
| NextItem (acc : list string)
| Done (acc : list string)
| Stuck.

Definition hex_value (c : ascii) : option N :=
  let n := N_of_ascii c in
  (if (48 <=? n) && (n <=? 57) then Some (n - 48)
   else if (97 <=? n) && (n <=? 102) then Some (n - 87)
   else None)%N.

Definition snoc (cur : string) (c : ascii) : string :=
  cur ++ String c EmptyString.

Definition is_quote (c : ascii) : bool :=
  Ascii.eqb c squote || Ascii.eqb c dquote.

Definition step (st : state) (c : ascii) : state :=
  match st with
  | Start => if Ascii.eqb c "[" then Open else Stuck
  | Open =>
      if Ascii.eqb c "]" then Done []
      else if is_quote c then InStr c [] EmptyString
      else Stuck
  | InStr q acc cur =>
      if Ascii.eqb c q then AfterItem (acc ++ [cur])
      else if Ascii.eqb c backslash then Esc q acc cur
      else InStr q acc (snoc cur c)
  | Esc q acc cur =>
      if Ascii.eqb c "t" then InStr q acc (snoc cur "009")
      else if Ascii.eqb c "n" then InStr q acc (snoc cur "010")
      else if Ascii.eqb c "r" then InStr q acc (snoc cur "013")
      else if Ascii.eqb c "x" then Hex1 q acc cur
      else if Ascii.eqb c backslash || is_quote c then InStr q acc (snoc cur c)
      else Stuck
  | Hex1 q acc cur =>
      match hex_value c with
      | Some h => Hex2 q acc cur h
      | None => Stuck
      end
  | Hex2 q acc cur h =>
      match hex_value c with
      | Some l => InStr q acc (snoc cur (ascii_of_N (16 * h + l)))
      | None => Stuck
      end
  | AfterItem acc =>
      if Ascii.eqb c "," then AfterComma acc
      else if Ascii.eqb c "]" then Done acc
      else Stuck
  | AfterComma acc => if Ascii.eqb c " " then NextItem acc else Stuck
  | NextItem acc => if is_quote c then InStr c acc EmptyString else Stuck
  | Done _ => Stuck
  | Stuck => Stuck
  end.

Fixpoint steps (st : state) (s : string) : state :=
  match s with
  | EmptyString => st
  | String c r => steps (step st c) r
  end.

(** The list of strings that the text [s] denotes, if it is the [repr] of
    one. *)
Definition read (s : string) : option (list string) :=
  match steps Start s with
  | Done acc => Some acc
  | _ => None
  end.

End Reader.

(** ** The package module [stabilizer] *)

Module Stabilizer.

(** [round] on an exact rational: to the nearest integer, a tie to the even
    one. *)
Definition py_round (q : Q) : Z :=
  let n := Qnum q in
  let d := Zpos (Qden q) in
  let f := n / d in
  let r2 := 2 * (n mod d) in
  if r2 <? d then f
  else if d <? r2 then f + 1
  else if Z.even f then f else f + 1.

(** Modelled from the spec: [stabilizer.voltage_to_machine_units], defined
    in the package's [__init__.py], of which only calls are in
    [set_pid.py].  The spec gives it as a pure function of one scalar,
    [voltage * (machine_range / full_scale_voltage)] rounded, over two
    constants of the hardware description.  The spec writes the rounding as
    [round(...)] and leaves the tie rule open; [py_round] is used.
    Voltages are exact rationals. *)
Definition voltage_to_machine_units (full_scale machine_range : Q) (voltage : Q) : Z :=
  py_round (voltage * (machine_range / full_scale)).

End Stabilizer.

(** ** Arguments, payload, events *)

Module Args.

(** The namespace returned by [parser.parse_args()].  [num] is the type of
    the parsed numbers. *)
Record t (num : Type) : Type := Make {
  verbose : Z;
  broker : string;
  prefix : string;
  no_discover : bool;
  channel : Z;
  sample_period : num;
  x_offset : num;
  y_min : num;
  y_max : num;
  y_offset : num;
  p : num;
  i : num;
  d : num;
  i_limit : num
}.

Arguments Make {num}.
Arguments verbose {num}.
Arguments broker {num}.
Arguments prefix {num}.
Arguments no_discover {num}.
Arguments channel {num}.
Arguments sample_period {num}.
Arguments x_offset {num}.
Arguments y_min {num}.
Arguments y_max {num}.
Arguments y_offset {num}.
Arguments p {num}.
Arguments i {num}.
Arguments d {num}.
Arguments i_limit {num}.

(** [--channel] is declared with [choices=[0, 1]]. *)
Definition channel_ok {num : Type} (a : t num) : Prop :=
  channel a = 0 \/ channel a = 1.

(** Two namespaces that agree on everything but [sample_period]. *)
Definition same_but_sample_period {num : Type} (a b : t num) : Prop :=
  verbose a = verbose b /\ broker a = broker b /\ prefix a = prefix b /\
  no_discover a = no_discover b /\ channel a = channel b /\
  x_offset a = x_offset b /\ y_min a = y_min b /\ y_max a = y_max b /\
  y_offset a = y_offset b /\ p a = p b /\ i a = i b /\ d a = d b /\
  i_limit a = i_limit b.

(** The namespace [a] with another [sample_period]. *)
Definition with_sample_period {num : Type} (sp : num) (a : t num) : t num :=
  {| verbose := verbose a;
     broker := broker a;
     prefix := prefix a;
     no_discover := no_discover a;
     channel := channel a;
     sample_period := sp;
     x_offset := x_offset a;
     y_min := y_min a;
     y_max := y_max a;
     y_offset := y_offset a;
     p := p a;
     i := i a;
     d := d a;
     i_limit := i_limit a |}.

(** The namespace [a] as [--no-discover --prefix p] would give it: the
    exact prefix [p] in place of a pattern, discovery switched off. *)
Definition exact {num : Type} (p : string) (a : t num) : t num :=
  {| verbose := verbose a;
     broker := broker a;
     prefix := p;
     no_discover := true;
     channel := channel a;
     sample_period := sample_period a;
     x_offset := x_offset a;
     y_min := y_min a;
     y_max := y_max a;
     y_offset := y_offset a;
     p := Args.p a;
     i := i a;
     d := d a;
     i_limit := i_limit a |}.

End Args.

Section Model.

Context {num : Type}.

(** A value of the dict passed to [interface.set]. *)
Inductive value : Type :=
| VNum (x : num)
| VInt (n : Z).

(** The dict literal, in the order its items are written. *)
Definition payload : Type := list (string * value).

Fixpoint get (key : string) (v : payload) : option value :=
  match v with
  | [] => None
  | (k, x) :: r => if String.eqb k key then Some x else get key r
  end.

Definition keys (v : payload) : list string := map fst v.

(** The object returned by [miniconf.Miniconf.create(prefix, broker)]. *)
Record interface : Type := Interface { if_prefix : string; if_broker : string }.

(** What the script does that is visible outside it, one event per call. *)
Inductive event : Type :=
| EvDiscover (broker prefix : string)
| EvLog (msg : string) (args : list string)
| EvCreate (prefix broker : string)
| EvConvert (voltage : num)
| EvSet (path : string) (v : payload).

(** What the calls into [miniconf] return or raise. *)
Record world : Type := World {
  miniconf_discover : string -> string -> exn + list string;
  Miniconf_create : string -> string -> exn + interface;
  interface_set : interface -> string -> payload -> exn + unit
}.

(** *** Trace and exception monad *)

Definition M (A : Type) : Type := (list event * (exn + A))%type.

Definition ret {A : Type} (a : A) : M A := ([], inr a).

Definition raise {A : Type} (e : exn) : M A := ([], inl e).

Definition bind {A B : Type} (m : M A) (f : A -> M B) : M B :=
  match m with
  | (t, inl e) => (t, inl e)
  | (t, inr a) => let (t', r) := f a in (t ++ t', r)
  end.

Definition call {A : Type} (ev : event) (r : exn + A) : M A := ([ev], r).

Definition trace {A : Type} (m : M A) : list event := fst m.

Definition outcome {A : Type} (m : M A) : exn + A := snd m.

End Model.

Arguments value : clear implicits.
Arguments payload : clear implicits.
Arguments event : clear implicits.
Arguments world : clear implicits.
Arguments M : clear implicits.

Declare Scope py_scope.
Delimit Scope py_scope with py.
Notation "x <- m ;; k" := (bind m (fun x => k))
  (at level 100, m at next level, right associativity) : py_scope.
Notation "m ;;; k" := (bind m (fun _ => k))
  (at level 100, right associativity) : py_scope.

(** ** The script *)

Section SetPid.

Context {num : Type}.

(** [stabilizer.voltage_to_machine_units], which may raise. *)
Variable voltage_to_machine_units : num -> exn + Z.

(** The rendering of the list that [miniconf.discover] returns, for the
    f-string field [{devices}]: in Python the built-in [repr], which is
    [Py.repr_list].  What does not depend on the rendering is stated for
    any. *)
Variable repr : list string -> string.

Variable w : world num.

Local Open Scope py_scope.

Definition logger_info (msg : string) (args : list string) : M num unit :=
  call (EvLog msg args) (inr tt).

Definition convert (voltage : num) : M num Z :=
  call (EvConvert voltage) (voltage_to_machine_units voltage).

(** [ValueError("No prefixes discovered.")] *)
Definition NoDeviceFound : exn := ValueError "No prefixes discovered.".

(** [ValueError(f"Multiple prefixes discovered ({devices})."
                "Please specify a more specific --prefix")] *)
Definition AmbiguousDeviceMatch (devices : list string) : exn :=
  ValueError ("Multiple prefixes discovered (" ++ repr devices ++
              ").Please specify a more specific --prefix").

(** [f"/pid_ch/{args.channel}"] *)
Definition config_path (channel : Z) : string := "/pid_ch/" ++ str_int channel.

(** The dict literal that [configure] passes to [interface.set], given the
    five converted voltages. *)
Definition pid_settings (args : Args.t num)
    (x_offset y_offset y_min y_max i_limit : Z) : payload num :=
  [ ("p", VNum (Args.p args));
    ("i", VNum (Args.i args));
    ("d", VNum (Args.d args));
    ("x_offset", VInt x_offset);
    ("y_offset", VInt y_offset);
    ("y_min", VInt y_min);
    ("y_max", VInt y_max);
    ("i_limit", VInt i_limit) ].

(** The coroutine [configure], closed over [prefix] and [args].  The
    arguments of [interface.set] are evaluated after the session is
    created: the path first, then the items of the dict in order. *)
Definition configure (args : Args.t num) (prefix : string) : M num unit :=
  logger_info "Connecting to broker" [] ;;;
  interface <- call (EvCreate prefix (Args.broker args))
                    (Miniconf_create w prefix (Args.broker args)) ;;
  let path := config_path (Args.channel args) in
  x_offset <- convert (Args.x_offset args) ;;
  y_offset <- convert (Args.y_offset args) ;;
  y_min <- convert (Args.y_min args) ;;
  y_max <- convert (Args.y_max args) ;;
  i_limit <- convert (Args.i_limit args) ;;
  let v := pid_settings args x_offset y_offset y_min y_max i_limit in
  call (EvSet path v) (interface_set w interface path v).

(** The prefix that [_main] configures (its [if args.no_discover] block):
    the one given, or the one discovered. *)
Definition resolve (args : Args.t num) : M num string :=
  if Args.no_discover args then ret (Args.prefix args)
  else
    devices <- call (EvDiscover (Args.broker args) (Args.prefix args))
                    (miniconf_discover w (Args.broker args) (Args.prefix args)) ;;
    if is_empty devices then raise NoDeviceFound
    else if 1 <? len devices then raise (AmbiguousDeviceMatch devices)
    else
      popped <- ([], pop devices) ;;
      let prefix := fst popped in
      logger_info "Automatically using detected device prefix: %s" [prefix] ;;;
      ret prefix.

(** [_main], from the parsed arguments on. *)
Definition _main (args : Args.t num) : M num unit :=
  prefix <- resolve args ;;
  configure args prefix.

End SetPid.

(** The configuration path as the spec writes it, [pid_ch/{channel}]. *)
Definition spec_path (channel : Z) : string := "pid_ch/" ++ str_int channel.

(** ** Observations on a trace *)

Section Observations.

Context {num : Type}.

(** The writes issued, oldest first. *)
Fixpoint writes (t : list (event num)) : list (string * payload num) :=
  match t with
  | [] => []
  | EvSet path v :: r => (path, v) :: writes r
  | _ :: r => writes r
  end.

(** The discovery queries sent. *)
Fixpoint discoveries (t : list (event num)) : list (string * string) :=
  match t with
  | [] => []
  | EvDiscover b p :: r => (b, p) :: discoveries r
  | _ :: r => discoveries r
  end.

(** The sessions asked for, as (prefix, broker). *)
Fixpoint sessions (t : list (event num)) : list (string * string) :=
  match t with
  | [] => []
  | EvCreate p b :: r => (p, b) :: sessions r
  | _ :: r => sessions r
  end.








(** The voltages handed to [voltage_to_machine_units], oldest first. *)
Fixpoint conversions (t : list (event num)) : list num :=
  match t with
  | [] => []
  | EvConvert voltage :: r => voltage :: conversions r
  | _ :: r => conversions r
  end.

(** The voltages that the dict literal of [configure] converts, in the order
    its items are written. *)
Definition voltages (a : Args.t num) : list num :=
  [Args.x_offset a; Args.y_offset a; Args.y_min a; Args.y_max a; Args.i_limit a].

(** Converting the voltages of [l] one after the other, the first exception
    ending the run: the voltages that get converted are those up to and
    including the first one on which the conversion raises. *)
Fixpoint attempted (vt : num -> exn + Z) (l : list num) : list num :=
  match l with
  | [] => []
  | voltage :: r =>
      voltage :: match vt voltage with
                 | inl _ => []
                 | inr _ => attempted vt r
                 end
  end.

(** The exception of the first voltage of [l] on which the conversion
    raises, if there is one. *)
Fixpoint first_error (vt : num -> exn + Z) (l : list num) : option exn :=
  match l with
  | [] => None
  | voltage :: r =>
      match vt voltage with
      | inl e => Some e
      | inr _ => first_error vt r
      end
  end.

End Observations.

(** ** Concrete inputs *)

Module Example.

(** The address of a live device. *)
Definition device : string := "dt/sinara/dual-pid/00".

(** A network on which discovery finds [devices], and sessions and writes
    succeed. *)
Definition net (devices : list string) : world Q :=
  {| miniconf_discover := fun _ _ => inr devices;
     Miniconf_create := fun prefix broker => inr (Interface prefix broker);
     interface_set := fun _ _ _ => inr tt |}.

(** A network on which the device rejects every write. *)
Definition rejecting : world Q :=
  {| miniconf_discover := fun _ _ => inr [device];
     Miniconf_create := fun prefix broker => inr (Interface prefix broker);
     interface_set := fun _ _ _ => inl (Exn "MiniconfException" "rejected") |}.

(** Full scale 10 V, machine range 2^15. *)
Definition full_scale : Q := 10%Q.
Definition machine_range : Q := inject_Z (2 ^ 15).

(** The conversion modelled from the spec, with these constants. *)
Definition to_machine_units (voltage : Q) : exn + Z :=
  inr (Stabilizer.voltage_to_machine_units full_scale machine_range voltage).


(** [--channel 0 --p 1.5 --i 0.2 --d 0.0 --i_limit 5.0], the rest at
    the defaults for that full scale. *)
Definition args : Args.t Q :=
  {| Args.verbose := 0;
     Args.broker := "mqtt";
     Args.prefix := "dt/sinara/dual-pid/+";
     Args.no_discover := false;
     Args.channel := 0;
     Args.sample_period := (0.00000128)%Q;
     Args.x_offset := (0)%Q;
     Args.y_min := (-10)%Q;
     Args.y_max := (10)%Q;
     Args.y_offset := (0)%Q;
     Args.p := (1.5)%Q;
     Args.i := (0.2)%Q;
     Args.d := (0)%Q;
     Args.i_limit := (5)%Q |}.

(** The same with discovery switched off and an exact prefix. *)
Definition exact_args : Args.t Q :=
  {| Args.verbose := 0;
     Args.broker := "mqtt";
     Args.prefix := device;
     Args.no_discover := true;
     Args.channel := 0;
     Args.sample_period := (0.00000128)%Q;
     Args.x_offset := (0)%Q;
     Args.y_min := (-10)%Q;
     Args.y_max := (10)%Q;
     Args.y_offset := (0)%Q;
     Args.p := (1.5)%Q;
     Args.i := (0.2)%Q;
     Args.d := (0)%Q;
     Args.i_limit := (5)%Q |}.

(** Channel 1, limits in the wrong order and a voltage far off scale. *)
Definition odd_args : Args.t Q :=
  {| Args.verbose := 0;
     Args.broker := "mqtt";
     Args.prefix := device;
     Args.no_discover := true;
     Args.channel := 1;
     Args.sample_period := (1)%Q;
     Args.x_offset := (1000)%Q;
     Args.y_min := (7)%Q;
     Args.y_max := (-7)%Q;
     Args.y_offset := (-1000)%Q;
     Args.p := (1.5)%Q;
     Args.i := (0.2)%Q;
     Args.d := (0)%Q;
     Args.i_limit := (5)%Q |}.

(** Another live device. *)
Definition device' : string := "dt/sinara/dual-pid/01".

(** The dict written for [args] and [exact_args] under [to_machine_units]. *)
Definition settings : payload Q :=
  [ ("p", VNum 1.5%Q);
    ("i", VNum 0.2%Q);
    ("d", VNum 0%Q);
    ("x_offset", VInt 0);
    ("y_offset", VInt 0);
    ("y_min", VInt (-32768));
    ("y_max", VInt 32768);
    ("i_limit", VInt 16384) ].

(** The run of [exact_args] over [to_machine_units] on a network that
    answers. *)
Definition exact_run : M Q unit :=
  configure to_machine_units (net []) exact_args device.

(** A network on which the broker cannot be reached for a session. *)
Definition unreachable : world Q :=
  {| miniconf_discover := fun _ _ => inr [device];
     Miniconf_create := fun _ _ => inl (Exn "MqttError" "connection refused");
     interface_set := fun _ _ _ => inr tt |}.

(** A network on which discovery itself raises. *)
Definition silent : world Q :=
  {| miniconf_discover := fun _ _ => inl (Exn "MqttError" "connection refused");
     Miniconf_create := fun prefix broker => inr (Interface prefix broker);
     interface_set := fun _ _ _ => inr tt |}.

(** A conversion that raises on a voltage beyond the full scale. *)
Definition bounded (voltage : Q) : exn + Z :=
  if Qle_bool (- full_scale) voltage && Qle_bool voltage full_scale
  then to_machine_units voltage
  else inl (ValueError "Voltage out-of-range").

End Example.

(** ** Facts about the Python values *)

Lemma to_int_not_nil (n : Z) :
  Z.to_int n <> Decimal.Pos Decimal.Nil /\ Z.to_int n <> Decimal.Neg Decimal.Nil.
Proof.
  split; intro H; pose proof (f_equal Z.of_int H) as E;
    rewrite DecimalZ.of_to in E; cbn in E; subst n; discriminate H.
Qed.

Lemma str_int_inj (n m : Z) : str_int n = str_int m -> n = m.
Proof.
  unfold str_int. intro H.
  apply (f_equal NilZero.int_of_string) in H.
  destruct (to_int_not_nil n) as [Hn1 Hn2], (to_int_not_nil m) as [Hm1 Hm2].
  rewrite !NilZero.isi in H by assumption.
  injection H as H. now apply DecimalZ.to_int_inj.
Qed.

Lemma append_inj_l (s a b : string) : (s ++ a = s ++ b)%string -> a = b.
Proof.
  induction s as [|c s IH]; simpl; intro H.
  - exact H.
  - injection H as H. auto.
Qed.

Lemma config_path_inj (c c' : Z) : config_path c = config_path c' -> c = c'.
Proof.
  unfold config_path. intro H. apply append_inj_l in H. now apply str_int_inj.
Qed.

Lemma len_gt_1 {A : Type} (x y : A) (l : list A) : (1 <? len (x :: y :: l)) = true.
Proof.
  apply Z.ltb_lt. unfold len. cbn [length]. lia.
Qed.

(** ** [repr_list] loses nothing *)

Lemma append_assoc (a b c : string) : ((a ++ b) ++ c = a ++ (b ++ c))%string.
Proof.
  induction a as [|x a IH]; cbn [append]; [reflexivity | now rewrite IH].
Qed.

Lemma append_nil_r (a : string) : (a ++ EmptyString)%string = a.
Proof.
  induction a as [|x a IH]; cbn [append]; [reflexivity | now rewrite IH].
Qed.

Lemma list_ascii_of_append (a b : string) :
  list_ascii_of_string (a ++ b) = list_ascii_of_string a ++ list_ascii_of_string b.
Proof.
  induction a as [|x a IH]; cbn [append list_ascii_of_string app];
    [reflexivity | now rewrite IH].
Qed.

Lemma list_ascii_of_string_inj (a b : string) :
  list_ascii_of_string a = list_ascii_of_string b -> a = b.
Proof.
  intro H. rewrite <- (string_of_list_ascii_of_string a),
             <- (string_of_list_ascii_of_string b), H. reflexivity.
Qed.

Lemma append_inj_r (s a b : string) : (a ++ s = b ++ s)%string -> a = b.
Proof.
  intro H. apply list_ascii_of_string_inj.
  apply (f_equal list_ascii_of_string) in H.
  rewrite !list_ascii_of_append in H. now apply app_inv_tail in H.
Qed.

Lemma steps_app (st : Reader.state) (a b : string) :
  Reader.steps st (a ++ b) = Reader.steps (Reader.steps st a) b.
Proof.
  revert st. induction a as [|x a IH]; intro st; cbn [append Reader.steps];
    [reflexivity | apply IH].
Qed.

Lemma quote_of_cases (s : string) : quote_of s = squote \/ quote_of s = dquote.
Proof.
  unfold quote_of.
  destruct (contains squote s && negb (contains dquote s)); [right | left];
    reflexivity.
Qed.

(** Reading the rendering of one character gives the character back. *)
Lemma steps_repr_char (q c : ascii) (acc : list string) (cur : string) :
  q = squote \/ q = dquote ->
  Reader.steps (Reader.InStr q acc cur) (repr_char q c) =
  Reader.InStr q acc (cur ++ String c EmptyString).
Proof.
  intros [-> | ->];
    destruct c as [[] [] [] [] [] [] [] []]; reflexivity.
Qed.

Lemma steps_repr_body (q : ascii) (acc : list string) (s cur : string) :
  q = squote \/ q = dquote ->
  Reader.steps (Reader.InStr q acc cur) (repr_body q s) =
  Reader.InStr q acc (cur ++ s).
Proof.
  intro Hq. revert cur. induction s as [|c s IH]; intro cur; cbn [repr_body].
  - now rewrite append_nil_r.
  - rewrite steps_app, (steps_repr_char q c acc cur Hq), IH, append_assoc.
    reflexivity.
Qed.

(** Reading the rendering of one string, where an item may start, gives the
    string back as the next item. *)
Lemma steps_repr_str (st : Reader.state) (acc : list string) (s : string) :
  (st = Reader.Open /\ acc = []) \/ st = Reader.NextItem acc ->
  Reader.steps st (repr_str s) = Reader.AfterItem (acc ++ [s]).
Proof.
  intro Hst. unfold repr_str. cbn zeta.
  assert (E : Reader.step st (quote_of s) =
              Reader.InStr (quote_of s) acc EmptyString).
  { destruct (quote_of_cases s) as [-> | ->];
      destruct Hst as [[-> ->] | ->]; reflexivity. }
  cbn [Reader.steps]. rewrite E, steps_app.
  rewrite (steps_repr_body _ acc s EmptyString (quote_of_cases s)).
  cbn [append Reader.steps Reader.step]. rewrite Ascii.eqb_refl. reflexivity.
Qed.

Lemma steps_items (st : Reader.state) (acc : list string) (x : string)
    (r : list string) :
  (st = Reader.Open /\ acc = []) \/ st = Reader.NextItem acc ->
  Reader.steps st (String.concat ", " (map repr_str (x :: r)) ++ "]") =
  Reader.Done (acc ++ x :: r).
Proof.
  revert st acc x. induction r as [|y r IH]; intros st acc x Hst.
  - cbn [map String.concat]. rewrite steps_app, (steps_repr_str st acc x Hst).
    reflexivity.
  - change (String.concat ", " (map repr_str (x :: y :: r)))
      with (repr_str x ++ ", " ++ String.concat ", " (map repr_str (y :: r)))%string.
    rewrite append_assoc, steps_app, (steps_repr_str st acc x Hst).
    rewrite append_assoc. cbn [append Reader.steps Reader.step].
    cbn -[String.concat].
    change (repr_str y :: map repr_str r) with (map repr_str (y :: r)).
    rewrite (IH (Reader.NextItem (acc ++ [x])) (acc ++ [x]) y (or_intror eq_refl)).
    rewrite <- app_assoc. reflexivity.
Qed.

(** Reading what [repr_list] writes gives the list back. *)
Lemma read_repr_list (l : list string) : Reader.read (repr_list l) = Some l.
Proof.
  destruct l as [|x r]; [reflexivity|].
  unfold Reader.read, repr_list.
  change ("[" ++ String.concat ", " (map repr_str (x :: r)) ++ "]")%string
    with (String "[" (String.concat ", " (map repr_str (x :: r)) ++ "]")).
  cbn [Reader.steps]. change (Reader.step Reader.Start "[") with Reader.Open.
  rewrite (steps_items Reader.Open [] x r (or_introl (conj eq_refl eq_refl))).
  reflexivity.
Qed.

Lemma repr_list_inj (l l' : list string) : repr_list l = repr_list l' -> l = l'.
Proof.
  intro H. apply (f_equal Reader.read) in H. rewrite !read_repr_list in H.
  now injection H.
Qed.

(** The rendering of a list holds the rendering of each of its strings. *)
Lemma repr_list_holds (l : list string) (x : string) :
  In x l ->
  exists before after, repr_list l = (before ++ repr_str x ++ after)%string.
Proof.
  intro Hin. unfold repr_list.
  assert (H : exists b c,
             String.concat ", " (map repr_str l) = (b ++ repr_str x ++ c)%string).
  { induction l as [|y r IH]; [contradiction|].
    destruct Hin as [-> | Hin].
    - exists EmptyString. destruct r as [|z r].
      + exists EmptyString. cbn [map String.concat append].
        now rewrite append_nil_r.
      + exists (", " ++ String.concat ", " (map repr_str (z :: r)))%string.
        reflexivity.
    - destruct (IH Hin) as (b & c & E). destruct r as [|z r]; [contradiction|].
      exists (repr_str y ++ ", " ++ b)%string, c.
      change (String.concat ", " (map repr_str (y :: z :: r)))
        with (repr_str y ++ ", " ++ String.concat ", " (map repr_str (z :: r)))%string.
      rewrite E, !append_assoc. reflexivity. }
  destruct H as (b & c & E). exists ("[" ++ b)%string, (c ++ "]")%string.
  rewrite E, !append_assoc. reflexivity.
Qed.

(** ** How [resolve], [configure] and [_main] run *)

Section Runs.

Context {num : Type}.
Variable vt : num -> exn + Z.
Variable repr : list string -> string.
Variable w : world num.

(** [resolve], case by case on what discovery answers. *)
Lemma resolve_eq (a : Args.t num) :
  resolve repr w a =
  if Args.no_discover a then ([], inr (Args.prefix a))
  else
    let q := EvDiscover (Args.broker a) (Args.prefix a) in
    match miniconf_discover w (Args.broker a) (Args.prefix a) with
    | inl e => ([q], inl e)
    | inr [] => ([q], inl NoDeviceFound)
    | inr [dev] =>
        ([q; EvLog "Automatically using detected device prefix: %s" [dev]], inr dev)
    | inr devices => ([q], inl (AmbiguousDeviceMatch repr devices))
    end.
Proof.
  unfold resolve. destruct (Args.no_discover a); [reflexivity|].
  unfold call, bind.
  destruct (miniconf_discover w (Args.broker a) (Args.prefix a)) as [e|devices];
    [reflexivity|].
  destruct devices as [|dev [|dev' rest]]; try reflexivity.
  cbn [is_empty]. rewrite len_gt_1. reflexivity.
Qed.

(** [configure], case by case on what the session, the conversions and the
    write answer. *)
Lemma configure_eq (a : Args.t num) (prefix : string) :
  configure vt w a prefix =
  let t0 := [EvLog "Connecting to broker" []; EvCreate prefix (Args.broker a)] in
  match Miniconf_create w prefix (Args.broker a) with
  | inl e => (t0, inl e)
  | inr itf =>
    let t1 := t0 ++ [EvConvert (Args.x_offset a)] in
    match vt (Args.x_offset a) with
    | inl e => (t1, inl e)
    | inr mx =>
      let t2 := t1 ++ [EvConvert (Args.y_offset a)] in
      match vt (Args.y_offset a) with
      | inl e => (t2, inl e)
      | inr my =>
        let t3 := t2 ++ [EvConvert (Args.y_min a)] in
        match vt (Args.y_min a) with
        | inl e => (t3, inl e)
        | inr mmin =>
          let t4 := t3 ++ [EvConvert (Args.y_max a)] in
          match vt (Args.y_max a) with
          | inl e => (t4, inl e)
          | inr mmax =>
            let t5 := t4 ++ [EvConvert (Args.i_limit a)] in
            match vt (Args.i_limit a) with
            | inl e => (t5, inl e)
            | inr ml =>
              let v := pid_settings a mx my mmin mmax ml in
              let path := config_path (Args.channel a) in
              (t5 ++ [EvSet path v], interface_set w itf path v)
            end
          end
        end
      end
    end
  end.
Proof.
  unfold configure, convert, logger_info, call, bind.
  destruct (Miniconf_create w prefix (Args.broker a)); [reflexivity|].
  destruct (vt (Args.x_offset a)); [reflexivity|].
  destruct (vt (Args.y_offset a)); [reflexivity|].
  destruct (vt (Args.y_min a)); [reflexivity|].
  destruct (vt (Args.y_max a)); [reflexivity|].
  destruct (vt (Args.i_limit a)); reflexivity.
Qed.

Lemma main_eq (a : Args.t num) :
  _main vt repr w a =
  match resolve repr w a with
  | (t, inl e) => (t, inl e)
  | (t, inr prefix) =>
      (t ++ trace (configure vt w a prefix), outcome (configure vt w a prefix))
  end.
Proof.
  unfold _main, bind, trace, outcome.
  destruct (resolve repr w a) as [t [e|prefix]]; [reflexivity|].
  destruct (configure vt w a prefix); reflexivity.
Qed.

End Runs.

(** ** What a run leaves in the trace *)


Section TraceFacts.

Context {num : Type}.
Variable vt : num -> exn + Z.
Variable repr : list string -> string.
Variable w : world num.

Lemma writes_app (t u : list (event num)) : writes (t ++ u) = writes t ++ writes u.
Proof.
  induction t as [|ev t IH]; [reflexivity|].
  destruct ev; cbn [writes app]; rewrite IH; reflexivity.
Qed.

Lemma discoveries_app (t u : list (event num)) :
  discoveries (t ++ u) = discoveries t ++ discoveries u.
Proof.
  induction t as [|ev t IH]; [reflexivity|].
  destruct ev; cbn [discoveries app]; rewrite IH; reflexivity.
Qed.

Lemma sessions_app (t u : list (event num)) :
  sessions (t ++ u) = sessions t ++ sessions u.
Proof.
  induction t as [|ev t IH]; [reflexivity|].
  destruct ev; cbn [sessions app]; rewrite IH; reflexivity.
Qed.

(** Resolution writes nothing, whatever discovery answers. *)
Lemma writes_resolve (a : Args.t num) : writes (trace (resolve repr w a)) = [].
Proof.
  rewrite resolve_eq. destruct (Args.no_discover a); [reflexivity|].
  destruct (miniconf_discover w (Args.broker a) (Args.prefix a)) as [e|devices];
    [reflexivity|].
  destruct devices as [|dev [|dev' rest]]; reflexivity.
Qed.

(** [configure] writes nothing, or once: the channel's path and the dict
    of the three gains and the five converted voltages. *)
Lemma writes_configure (a : Args.t num) (prefix : string) :
  writes (trace (configure vt w a prefix)) = [] \/
  exists itf mx my mmin mmax ml,
    Miniconf_create w prefix (Args.broker a) = inr itf /\
    vt (Args.x_offset a) = inr mx /\
    vt (Args.y_offset a) = inr my /\
    vt (Args.y_min a) = inr mmin /\
    vt (Args.y_max a) = inr mmax /\
    vt (Args.i_limit a) = inr ml /\
    writes (trace (configure vt w a prefix)) =
      [(config_path (Args.channel a), pid_settings a mx my mmin mmax ml)] /\
    outcome (configure vt w a prefix) =
      interface_set w itf (config_path (Args.channel a))
                    (pid_settings a mx my mmin mmax ml).
Proof.
  rewrite configure_eq.
  destruct (Miniconf_create w prefix (Args.broker a)) as [e|itf]; [now left|].
  destruct (vt (Args.x_offset a)) as [e|mx]; [now left|].
  destruct (vt (Args.y_offset a)) as [e|my]; [now left|].
  destruct (vt (Args.y_min a)) as [e|mmin]; [now left|].
  destruct (vt (Args.y_max a)) as [e|mmax]; [now left|].
  destruct (vt (Args.i_limit a)) as [e|ml]; [now left|].
  right. exists itf, mx, my, mmin, mmax, ml. repeat split; reflexivity.
Qed.

(** [configure] sends no discovery query, and asks for one session. *)
Lemma discoveries_configure (a : Args.t num) (prefix : string) :
  discoveries (trace (configure vt w a prefix)) = [].
Proof.
  rewrite configure_eq.
  destruct (Miniconf_create w prefix (Args.broker a)) as [e|itf]; [reflexivity|].
  destruct (vt (Args.x_offset a)) as [e|mx]; [reflexivity|].
  destruct (vt (Args.y_offset a)) as [e|my]; [reflexivity|].
  destruct (vt (Args.y_min a)) as [e|mmin]; [reflexivity|].
  destruct (vt (Args.y_max a)) as [e|mmax]; [reflexivity|].
  destruct (vt (Args.i_limit a)) as [e|ml]; reflexivity.
Qed.

Lemma sessions_configure (a : Args.t num) (prefix : string) :
  sessions (trace (configure vt w a prefix)) = [(prefix, Args.broker a)].
Proof.
  rewrite configure_eq.
  destruct (Miniconf_create w prefix (Args.broker a)) as [e|itf]; [reflexivity|].
  destruct (vt (Args.x_offset a)) as [e|mx]; [reflexivity|].
  destruct (vt (Args.y_offset a)) as [e|my]; [reflexivity|].
  destruct (vt (Args.y_min a)) as [e|mmin]; [reflexivity|].
  destruct (vt (Args.y_max a)) as [e|mmax]; [reflexivity|].
  destruct (vt (Args.i_limit a)) as [e|ml]; reflexivity.
Qed.


(** The writes of [_main] are those of its [configure], if it gets there. *)
Lemma writes_main (a : Args.t num) :
  writes (trace (_main vt repr w a)) = [] \/
  exists prefix,
    writes (trace (_main vt repr w a)) = writes (trace (configure vt w a prefix)).
Proof.
  rewrite main_eq. pose proof (writes_resolve a) as Hr.
  destruct (resolve repr w a) as [t [e|prefix]]; cbn [trace fst] in *.
  - now left.
  - right. exists prefix. rewrite writes_app, Hr. reflexivity.
Qed.

End TraceFacts.


(** ** The configuration transactor *)

Section Transactor.

Context {num : Type}.
Variable vt : num -> exn + Z.
Variable w : world num.

(** C1.  Whenever [configure] issues its write, the value transmitted holds
    the gains [p], [i] and [d] exactly as the caller gave them, and for each
    of [x_offset], [y_offset], [y_min], [y_max] and [i_limit] what
    [voltage_to_machine_units] returned on that argument alone. *)
Theorem configure_converts_voltages_only
    (a : Args.t num) (prefix path : string) (v : payload num) :
  In (path, v) (writes (trace (configure vt w a prefix))) ->
  get "p" v = Some (VNum (Args.p a)) /\
  get "i" v = Some (VNum (Args.i a)) /\
  get "d" v = Some (VNum (Args.d a)) /\
  (exists m, vt (Args.x_offset a) = inr m /\ get "x_offset" v = Some (VInt m)) /\
  (exists m, vt (Args.y_offset a) = inr m /\ get "y_offset" v = Some (VInt m)) /\
  (exists m, vt (Args.y_min a) = inr m /\ get "y_min" v = Some (VInt m)) /\
  (exists m, vt (Args.y_max a) = inr m /\ get "y_max" v = Some (VInt m)) /\
  (exists m, vt (Args.i_limit a) = inr m /\ get "i_limit" v = Some (VInt m)).
Proof.
  intro H.
  destruct (writes_configure vt w a prefix)
    as [E | (itf & mx & my & mmin & mmax & ml & _ & Hx & Hy & Hmin & Hmax & Hl & E & _)];
    rewrite E in H; [contradiction|].
  destruct H as [H|[]]. injection H as _ <-.
  repeat split; try reflexivity; eexists; (split; [eassumption | reflexivity]).
Qed.

(** C2, as amended.  With the channel in {0, 1}, a write of [configure]
    targets the path [/pid_ch/{channel}], with its leading slash, and the
    keys of its value are p, i, d, x_offset, y_offset, y_min, y_max and
    i_limit: those eight, each once, in that order. *)
Theorem config_write_schema
    (a : Args.t num) (prefix path : string) (v : payload num) :
  Args.channel_ok a ->
  In (path, v) (writes (trace (configure vt w a prefix))) ->
  path = ("/pid_ch/" ++ str_int (Args.channel a))%string /\
  (path = "/pid_ch/0" \/ path = "/pid_ch/1") /\
  keys v = ["p"; "i"; "d"; "x_offset"; "y_offset"; "y_min"; "y_max"; "i_limit"].
Proof.
  intros Hc H.
  destruct (writes_configure vt w a prefix)
    as [E | (itf & mx & my & mmin & mmax & ml & _ & _ & _ & _ & _ & _ & E & _)];
    rewrite E in H; [contradiction|].
  destruct H as [H|[]]. injection H as <- <-.
  repeat split; try reflexivity.
  unfold config_path. destruct Hc as [-> | ->]; [left | right]; reflexivity.
Qed.

End Transactor.

(** ** One invocation of [_main] *)

Section Invocation.

Context {num : Type}.
Variable vt : num -> exn + Z.
Variable repr : list string -> string.
Variable w : world num.

(** C3.  With discovery on, if [miniconf.discover] returns no address,
    [_main] ends in the exception [NoDeviceFound], that is
    [ValueError("No prefixes discovered.")], uncaught; it differs from the
    ambiguity error of every device list; and the invocation has sent its
    discovery query and nothing else, so no write. *)
Theorem no_device_found (a : Args.t num) :
  Args.no_discover a = false ->
  miniconf_discover w (Args.broker a) (Args.prefix a) = inr [] ->
  outcome (_main vt repr w a) = inl NoDeviceFound /\
  NoDeviceFound = ValueError "No prefixes discovered." /\
  (forall devices, NoDeviceFound <> AmbiguousDeviceMatch repr devices) /\
  trace (_main vt repr w a) = [EvDiscover (Args.broker a) (Args.prefix a)] /\
  writes (trace (_main vt repr w a)) = [].
Proof.
  intros Hd Hq.
  assert (E : _main vt repr w a =
              ([EvDiscover (Args.broker a) (Args.prefix a)], inl NoDeviceFound)).
  { rewrite main_eq, resolve_eq, Hd, Hq. reflexivity. }
  rewrite E. repeat split. intros devices; discriminate.
Qed.

(** C4.  With discovery on, if [miniconf.discover] returns two or more
    addresses, [_main] ends in a [ValueError], uncaught, whose message is
    [Multiple prefixes discovered (] followed by Python's [repr] of the
    whole list that discovery returned and by
    [).Please specify a more specific --prefix].  The message holds the
    [repr] of every address returned, and it determines the list: no other
    list of addresses gives the same message.  The invocation has sent its
    discovery query and nothing else, so no write. *)
Theorem ambiguous_device_match (a : Args.t num) (devices : list string) :
  Args.no_discover a = false ->
  miniconf_discover w (Args.broker a) (Args.prefix a) = inr devices ->
  (2 <= length devices)%nat ->
  exists e,
    outcome (_main vt repr_list w a) = inl e /\
    exn_class e = "ValueError" /\
    exn_msg e =
      ("Multiple prefixes discovered (" ++ repr_list devices ++
       ").Please specify a more specific --prefix")%string /\
    (forall dev,
        In dev devices ->
        exists before after,
          exn_msg e = (before ++ repr_str dev ++ after)%string) /\
    (forall devices',
        exn_msg e =
          ("Multiple prefixes discovered (" ++ repr_list devices' ++
           ").Please specify a more specific --prefix")%string ->
        devices' = devices) /\
    trace (_main vt repr_list w a) =
      [EvDiscover (Args.broker a) (Args.prefix a)] /\
    writes (trace (_main vt repr_list w a)) = [].
Proof.
  intros Hd Hq Hlen.
  assert (E : _main vt repr_list w a =
              ([EvDiscover (Args.broker a) (Args.prefix a)],
               inl (AmbiguousDeviceMatch repr_list devices))).
  { rewrite main_eq, resolve_eq, Hd, Hq.
    destruct devices as [|dev [|dev' rest]]; cbn [length] in Hlen; try lia.
    reflexivity. }
  exists (AmbiguousDeviceMatch repr_list devices). rewrite E.
  split; [reflexivity | split; [reflexivity | split; [reflexivity|]]].
  split; [|split; [|split; reflexivity]].
  - intros dev Hin. destruct (repr_list_holds devices dev Hin) as (b & c & Eb).
    exists ("Multiple prefixes discovered (" ++ b)%string,
           (c ++ ").Please specify a more specific --prefix")%string.
    cbn [AmbiguousDeviceMatch ValueError exn_msg]. rewrite Eb, !append_assoc.
    reflexivity.
  - intros devices' Em. cbn [AmbiguousDeviceMatch ValueError exn_msg] in Em.
    apply append_inj_l in Em. apply append_inj_r in Em.
    symmetry. now apply repr_list_inj.
Qed.

(** C6.  With [--no-discover], [_main] is [configure] on the caller's prefix
    as given: the one session it asks for names that prefix, and the trace
    holds no discovery query. *)
Theorem no_discover_skips_resolver (a : Args.t num) :
  Args.no_discover a = true ->
  resolve repr w a = ([], inr (Args.prefix a)) /\
  _main vt repr w a = configure vt w a (Args.prefix a) /\
  sessions (trace (_main vt repr w a)) = [(Args.prefix a, Args.broker a)] /\
  discoveries (trace (_main vt repr w a)) = [].
Proof.
  intro Hd.
  assert (Er : resolve repr w a = ([], inr (Args.prefix a))).
  { rewrite resolve_eq, Hd. reflexivity. }
  assert (E : _main vt repr w a = configure vt w a (Args.prefix a)).
  { rewrite main_eq, Er. unfold trace, outcome.
    destruct (configure vt w a (Args.prefix a)); reflexivity. }
  rewrite E, sessions_configure, discoveries_configure. repeat split. exact Er.
Qed.

(** C7.  Whatever discovery, the session, the conversions and the write
    answer, an invocation issues at most one write; a write it issues
    targets the path of the channel given, and the path of no other
    channel. *)
Theorem at_most_one_write (a : Args.t num) :
  (length (writes (trace (_main vt repr w a))) <= 1)%nat /\
  (forall path v,
      In (path, v) (writes (trace (_main vt repr w a))) ->
      path = config_path (Args.channel a)) /\
  (forall c,
      c <> Args.channel a ->
      ~ In (config_path c) (map fst (writes (trace (_main vt repr w a))))).
Proof.
  assert (H : writes (trace (_main vt repr w a)) = [] \/
              exists v, writes (trace (_main vt repr w a)) =
                        [(config_path (Args.channel a), v)]).
  { destruct (writes_main vt repr w a) as [E | [prefix E]]; [now left|].
    rewrite E.
    destruct (writes_configure vt w a prefix)
      as [E' | (itf & mx & my & mmin & mmax & ml & _ & _ & _ & _ & _ & _ & E' & _)];
      [now left|].
    right. eexists. exact E'. }
  destruct H as [E | [v0 E]]; rewrite E; cbn [length map fst In].
  - repeat split; try lia; intros; tauto.
  - repeat split; try lia.
    + intros path v [H|[]]. now injection H as <- _.
    + intros c Hc [H|[]]. apply config_path_inj in H. congruence.
Qed.


(** C10.  Two invocations whose arguments differ in [sample_period] only
    leave the same trace and have the same outcome: the same write, path
    and value. *)
Theorem sample_period_unused (a b : Args.t num) :
  Args.same_but_sample_period a b ->
  _main vt repr w a = _main vt repr w b /\
  writes (trace (_main vt repr w a)) = writes (trace (_main vt repr w b)).
Proof.
  intro H.
  assert (E : _main vt repr w a = _main vt repr w b).
  { destruct a, b. unfold Args.same_but_sample_period in H. cbn in H.
    destruct H as (? & ? & ? & ? & ? & ? & ? & ? & ? & ? & ? & ? & ?).
    subst. reflexivity. }
  rewrite E. split; reflexivity.
Qed.

End Invocation.


(** ** The transactor over the conversion of the spec *)

Section SpecConversion.

Variable w : world Q.

(** C8.  With the conversion modelled from the spec, whatever the physical
    parameters are (no condition on them: [y_min] may exceed [y_max], a
    voltage may be off scale), once the session is open [configure] issues
    its write with the values converted as given, and its outcome is what
    the device answers to that write: the script raises nothing of its
    own. *)
Theorem no_client_side_validation
    (full_scale machine_range : Q) (a : Args.t Q) (prefix : string)
    (itf : interface) :
  Miniconf_create w prefix (Args.broker a) = inr itf ->
  let to_mu := Stabilizer.voltage_to_machine_units full_scale machine_range in
  let v := pid_settings a (to_mu (Args.x_offset a)) (to_mu (Args.y_offset a))
                        (to_mu (Args.y_min a)) (to_mu (Args.y_max a))
                        (to_mu (Args.i_limit a)) in
  writes (trace (configure (fun x => inr (to_mu x)) w a prefix)) =
    [(config_path (Args.channel a), v)] /\
  outcome (configure (fun x => inr (to_mu x)) w a prefix) =
    interface_set w itf (config_path (Args.channel a)) v.
Proof.
  intros Hc to_mu v. rewrite configure_eq, Hc. split; reflexivity.
Qed.

(** C5, as amended.  For channel 0, P = 1.5, I = 0.2, D = 0 and an
    [i_limit] of 5 V, with a full scale of 10 V and a machine range of 2^15,
    once the session is open [configure] issues exactly one write, to the
    path [/pid_ch/0]; its [i_limit] field is [round(5 * (2^15 / 10))], that
    is 16384, with no factor of the I gain; each of the other converted
    fields is its voltage times [2^15 / 10], rounded; and [p], [i], [d] are
    the input values. *)
Theorem transactor_example (a : Args.t Q) (prefix : string) (itf : interface) :
  Args.channel a = 0 ->
  Args.p a = 1.5%Q -> Args.i a = 0.2%Q -> Args.d a = 0%Q ->
  Args.i_limit a = 5%Q ->
  Miniconf_create w prefix (Args.broker a) = inr itf ->
  let scale := (inject_Z (2 ^ 15) / 10)%Q in
  exists v,
    writes (trace (configure Example.to_machine_units w a prefix)) =
      [("/pid_ch/0", v)] /\
    get "i_limit" v = Some (VInt (Stabilizer.py_round (5 * scale))) /\
    Stabilizer.py_round (5 * scale) = 16384 /\
    get "p" v = Some (VNum 1.5%Q) /\
    get "i" v = Some (VNum 0.2%Q) /\
    get "d" v = Some (VNum 0%Q) /\
    get "x_offset" v = Some (VInt (Stabilizer.py_round (Args.x_offset a * scale))) /\
    get "y_offset" v = Some (VInt (Stabilizer.py_round (Args.y_offset a * scale))) /\
    get "y_min" v = Some (VInt (Stabilizer.py_round (Args.y_min a * scale))) /\
    get "y_max" v = Some (VInt (Stabilizer.py_round (Args.y_max a * scale))).
Proof.
  intros Hch Hp Hi Hd Hl Hc scale.
  eexists. rewrite configure_eq, Hc. unfold Example.to_machine_units.
  cbn [trace fst app writes]. rewrite Hch, Hl.
  split; [reflexivity|].
  unfold pid_settings. rewrite Hp, Hi, Hd.
  repeat split; reflexivity.
Qed.

End SpecConversion.

(** ** The claims on concrete runs *)

Lemma exact_run_writes :
  writes (trace Example.exact_run) = [("/pid_ch/0", Example.settings)].
Proof. vm_compute. reflexivity. Qed.

Lemma configure_converts_voltages_only_witness :
  In ("/pid_ch/0", Example.settings) (writes (trace Example.exact_run)) /\
  get "p" Example.settings = Some (VNum 1.5%Q) /\
  get "i" Example.settings = Some (VNum 0.2%Q) /\
  get "d" Example.settings = Some (VNum 0%Q) /\
  (exists m, Example.to_machine_units 0%Q = inr m /\
             get "x_offset" Example.settings = Some (VInt m)) /\
  (exists m, Example.to_machine_units 0%Q = inr m /\
             get "y_offset" Example.settings = Some (VInt m)) /\
  (exists m, Example.to_machine_units (-10)%Q = inr m /\
             get "y_min" Example.settings = Some (VInt m)) /\
  (exists m, Example.to_machine_units 10%Q = inr m /\
             get "y_max" Example.settings = Some (VInt m)) /\
  (exists m, Example.to_machine_units 5%Q = inr m /\
             get "i_limit" Example.settings = Some (VInt m)).
Proof.
  assert (H : In ("/pid_ch/0", Example.settings) (writes (trace Example.exact_run))).
  { vm_compute. left. reflexivity. }
  split; [exact H|].
  exact (configure_converts_voltages_only Example.to_machine_units (Example.net [])
           Example.exact_args Example.device "/pid_ch/0" Example.settings H).
Defined.

(** C2, as stated, fails: the path written for channel 0 is not
    [pid_ch/0]. *)
Lemma write_path_is_not_spec_path :
  exists path v,
    In (path, v) (writes (trace Example.exact_run)) /\
    Args.channel Example.exact_args = 0 /\
    path <> spec_path (Args.channel Example.exact_args).
Proof.
  exists "/pid_ch/0", Example.settings. split; [|split].
  - vm_compute. left. reflexivity.
  - reflexivity.
  - vm_compute. discriminate.
Qed.

Lemma config_write_schema_witness :
  Args.channel_ok Example.exact_args /\
  In ("/pid_ch/0", Example.settings) (writes (trace Example.exact_run)) /\
  ("/pid_ch/0" = ("/pid_ch/" ++ str_int (Args.channel Example.exact_args))%string /\
   ("/pid_ch/0" = "/pid_ch/0" \/ "/pid_ch/0" = "/pid_ch/1") /\
   keys Example.settings =
     ["p"; "i"; "d"; "x_offset"; "y_offset"; "y_min"; "y_max"; "i_limit"]).
Proof.
  assert (Hc : Args.channel_ok Example.exact_args) by (left; reflexivity).
  assert (H : In ("/pid_ch/0", Example.settings) (writes (trace Example.exact_run))).
  { vm_compute. left. reflexivity. }
  split; [exact Hc | split; [exact H|]].
  exact (config_write_schema Example.to_machine_units (Example.net [])
           Example.exact_args Example.device "/pid_ch/0" Example.settings Hc H).
Defined.

Lemma no_device_found_witness :
  Args.no_discover Example.args = false /\
  miniconf_discover (Example.net []) (Args.broker Example.args)
                    (Args.prefix Example.args) = inr [] /\
  outcome (_main Example.to_machine_units repr_list (Example.net [])
                 Example.args) = inl NoDeviceFound.
Proof.
  split; [reflexivity | split; [reflexivity|]].
  exact (proj1 (no_device_found Example.to_machine_units repr_list
                  (Example.net []) Example.args eq_refl eq_refl)).
Defined.

Lemma ambiguous_device_match_witness :
  let devices := [Example.device; Example.device'] in
  Args.no_discover Example.args = false /\
  miniconf_discover (Example.net devices) (Args.broker Example.args)
                    (Args.prefix Example.args) = inr devices /\
  (2 <= length devices)%nat /\
  outcome (_main Example.to_machine_units repr_list (Example.net devices)
                 Example.args) =
    inl (Exn "ValueError"
             "Multiple prefixes discovered (['dt/sinara/dual-pid/00', 'dt/sinara/dual-pid/01']).Please specify a more specific --prefix").
Proof.
  intro devices.
  assert (Hl : (2 <= length devices)%nat) by (cbn; lia).
  split; [reflexivity | split; [reflexivity | split; [exact Hl|]]].
  destruct (ambiguous_device_match Example.to_machine_units
              (Example.net devices) Example.args devices eq_refl eq_refl Hl)
    as (e & Ho & Hc & Hm & _).
  rewrite Ho. destruct e as [c m]. cbn [exn_class exn_msg] in Hc, Hm.
  rewrite Hc, Hm. reflexivity.
Defined.

Lemma no_discover_skips_resolver_witness :
  Args.no_discover Example.exact_args = true /\
  sessions (trace (_main Example.to_machine_units repr_list
                         (Example.net []) Example.exact_args)) =
    [(Example.device, "mqtt")] /\
  discoveries (trace (_main Example.to_machine_units repr_list
                            (Example.net []) Example.exact_args)) = [].
Proof.
  split; [reflexivity|].
  exact (proj2 (proj2 (no_discover_skips_resolver Example.to_machine_units
                         repr_list (Example.net []) Example.exact_args
                         eq_refl))).
Defined.

Lemma at_most_one_write_witness :
  1 <> Args.channel Example.exact_args /\
  length (writes (trace (_main Example.to_machine_units repr_list
                               (Example.net []) Example.exact_args))) = 1%nat /\
  ~ In "/pid_ch/1"
       (map fst (writes (trace (_main Example.to_machine_units repr_list
                                      (Example.net []) Example.exact_args)))).
Proof.
  assert (Hc : 1 <> Args.channel Example.exact_args) by discriminate.
  split; [exact Hc | split; [reflexivity|]].
  exact (proj2 (proj2 (at_most_one_write Example.to_machine_units repr_list
                         (Example.net []) Example.exact_args)) 1 Hc).
Defined.

Lemma no_client_side_validation_witness :
  (Args.y_max Example.odd_args < Args.y_min Example.odd_args)%Q /\
  (Example.full_scale < Args.x_offset Example.odd_args)%Q /\
  Miniconf_create (Example.net []) Example.device (Args.broker Example.odd_args) =
    inr (Interface Example.device "mqtt") /\
  writes (trace (configure Example.to_machine_units (Example.net [])
                           Example.odd_args Example.device)) =
    [("/pid_ch/1",
      [ ("p", VNum 1.5%Q); ("i", VNum 0.2%Q); ("d", VNum 0%Q);
        ("x_offset", VInt 3276800); ("y_offset", VInt (-3276800));
        ("y_min", VInt 22938); ("y_max", VInt (-22938));
        ("i_limit", VInt 16384) ])] /\
  outcome (configure Example.to_machine_units (Example.net [])
                     Example.odd_args Example.device) = inr tt.
Proof.
  split; [reflexivity | split; [reflexivity | split; [reflexivity|]]].
  exact (no_client_side_validation (Example.net []) Example.full_scale
           Example.machine_range Example.odd_args Example.device
           (Interface Example.device "mqtt") eq_refl).
Defined.

(** C5, as stated, fails on both counts: the one write of the example goes
    to [/pid_ch/0], not [pid_ch/0], and its [i_limit] is 16384, not
    [round(0.2 * 5.0/10.0 * 2^15)], which is 3277. *)
Lemma i_limit_is_not_scaled_by_i_gain :
  Stabilizer.py_round (0.2 * 5 / 10 * inject_Z (2 ^ 15))%Q = 3277 /\
  ~ exists path v,
      writes (trace Example.exact_run) = [(path, v)] /\
      (path = spec_path 0 \/
       get "i_limit" v =
         Some (VInt (Stabilizer.py_round (0.2 * 5 / 10 * inject_Z (2 ^ 15))%Q))).
Proof.
  split; [reflexivity|].
  intros (path & v & E & H). rewrite exact_run_writes in E.
  injection E as <- <-. destruct H as [H|H]; vm_compute in H; discriminate H.
Qed.

Lemma transactor_example_witness :
  Args.channel Example.exact_args = 0 /\
  Args.p Example.exact_args = 1.5%Q /\
  Args.i Example.exact_args = 0.2%Q /\
  Args.d Example.exact_args = 0%Q /\
  Args.i_limit Example.exact_args = 5%Q /\
  Miniconf_create (Example.net []) Example.device (Args.broker Example.exact_args) =
    inr (Interface Example.device "mqtt") /\
  exists v,
    writes (trace Example.exact_run) = [("/pid_ch/0", v)] /\
    get "i_limit" v = Some (VInt 16384).
Proof.
  repeat (split; [reflexivity|]).
  destruct (transactor_example (Example.net []) Example.exact_args Example.device
              (Interface Example.device "mqtt")
              eq_refl eq_refl eq_refl eq_refl eq_refl eq_refl)
    as (v & Hw & Hl & Hv & _).
  exists v. split; [exact Hw|]. rewrite Hl, Hv. reflexivity.
Defined.



Lemma sample_period_unused_witness :
  Args.sample_period (Args.with_sample_period 1%Q Example.args) <>
    Args.sample_period Example.args /\
  Args.same_but_sample_period (Args.with_sample_period 1%Q Example.args)
                              Example.args /\
  _main Example.to_machine_units repr_list (Example.net [Example.device])
        (Args.with_sample_period 1%Q Example.args) =
  _main Example.to_machine_units repr_list (Example.net [Example.device])
        Example.args.
Proof.
  assert (H : Args.same_but_sample_period
                (Args.with_sample_period 1%Q Example.args) Example.args).
  { unfold Args.same_but_sample_period. repeat split. }
  split; [discriminate | split; [exact H|]].
  exact (proj1 (sample_period_unused Example.to_machine_units repr_list
                  (Example.net [Example.device]) _ _ H)).
Defined.


(** ** Resolution, case by case *)

Section Resolution.

Context {num : Type}.
Variable vt : num -> exn + Z.
Variable repr : list string -> string.
Variable w : world num.

(** [configure] reads the prefix it is given, not the one of the
    namespace. *)
Lemma configure_exact (a : Args.t num) (prefix : string) :
  configure vt w (Args.exact prefix a) prefix = configure vt w a prefix.
Proof. reflexivity. Qed.

(** X1.  When discovery is on and returns exactly one address, [_main] logs
    it and runs [configure] on that address: the trace is the query, the
    log line and the trace of [configure], the outcome is that of
    [configure], and the one session asked for names the address
    discovered. *)
Theorem unique_device_is_configured (a : Args.t num) (dev : string) :
  Args.no_discover a = false ->
  miniconf_discover w (Args.broker a) (Args.prefix a) = inr [dev] ->
  trace (_main vt repr w a) =
    [EvDiscover (Args.broker a) (Args.prefix a);
     EvLog "Automatically using detected device prefix: %s" [dev]] ++
    trace (configure vt w a dev) /\
  outcome (_main vt repr w a) = outcome (configure vt w a dev) /\
  sessions (trace (_main vt repr w a)) = [(dev, Args.broker a)].
Proof.
  intros Hd Hq. rewrite main_eq, resolve_eq, Hd, Hq. cbn [trace outcome fst snd].
  repeat split. cbn [sessions app]. apply sessions_configure.
Qed.

(** X2.  A run whose pattern resolves to the single address [dev] does what
    the run with [--no-discover --prefix dev] does: the same session, the
    same conversions, the same write, the same outcome. *)
Theorem wildcard_run_equals_exact_run (a : Args.t num) (dev : string) :
  Args.no_discover a = false ->
  miniconf_discover w (Args.broker a) (Args.prefix a) = inr [dev] ->
  sessions (trace (_main vt repr w a)) =
    sessions (trace (_main vt repr w (Args.exact dev a))) /\
  conversions (trace (_main vt repr w a)) =
    conversions (trace (_main vt repr w (Args.exact dev a))) /\
  writes (trace (_main vt repr w a)) =
    writes (trace (_main vt repr w (Args.exact dev a))) /\
  outcome (_main vt repr w a) = outcome (_main vt repr w (Args.exact dev a)).
Proof.
  intros Hd Hq.
  rewrite (main_eq vt repr w (Args.exact dev a)), (resolve_eq repr w (Args.exact dev a)).
  cbn [Args.no_discover Args.prefix Args.exact]. rewrite configure_exact.
  rewrite main_eq, resolve_eq, Hd, Hq.
  cbn [trace outcome fst snd app sessions conversions writes]. repeat split.
Qed.

(** X3.  Resolution yields a prefix in two cases only: discovery is off, and the
    prefix is the one given; or discovery is on and returned exactly one
    address, and the prefix is that address. *)
Theorem resolve_succeeds_iff (a : Args.t num) (prefix : string) :
  outcome (resolve repr w a) = inr prefix <->
  (Args.no_discover a = true /\ prefix = Args.prefix a) \/
  (Args.no_discover a = false /\
   miniconf_discover w (Args.broker a) (Args.prefix a) = inr [prefix]).
Proof.
  rewrite resolve_eq. destruct (Args.no_discover a); cbn [outcome snd].
  - split.
    + intros [= <-]. left. split; reflexivity.
    + intros [[_ ->] | [H _]]; [reflexivity | discriminate H].
  - cbv zeta.
    destruct (miniconf_discover w (Args.broker a) (Args.prefix a)) as [e|devices].
    + split; [discriminate|]. intros [[H _] | [_ H]]; discriminate H.
    + destruct devices as [|dev [|dev' rest]]; cbn [snd].
      * split; [discriminate|]. intros [[H _] | [_ H]]; discriminate H.
      * split.
        -- intros [= <-]. right. split; reflexivity.
        -- intros [[H _] | [_ [= <-]]]; [discriminate H | reflexivity].
      * split; [discriminate|]. intros [[H _] | [_ H]]; discriminate H.
Qed.

(** X4.  When discovery is on and [miniconf.discover] raises, [_main] ends in
    that exception as it is, having sent its query and nothing else: no
    session, no conversion, no write. *)
Theorem discovery_error_propagates (a : Args.t num) (e : exn) :
  Args.no_discover a = false ->
  miniconf_discover w (Args.broker a) (Args.prefix a) = inl e ->
  _main vt repr w a = ([EvDiscover (Args.broker a) (Args.prefix a)], inl e) /\
  sessions (trace (_main vt repr w a)) = [] /\
  conversions (trace (_main vt repr w a)) = [] /\
  writes (trace (_main vt repr w a)) = [].
Proof.
  intros Hd Hq.
  assert (E : _main vt repr w a =
              ([EvDiscover (Args.broker a) (Args.prefix a)], inl e)).
  { rewrite main_eq, resolve_eq, Hd, Hq. reflexivity. }
  rewrite E. repeat split.
Qed.

(** X5.  An invocation sends one discovery query, for the broker and the pattern
    given, when discovery is on, and none when it is off, whatever happens
    afterwards. *)
Theorem one_discovery_query_when_on (a : Args.t num) :
  discoveries (trace (_main vt repr w a)) =
  if Args.no_discover a then [] else [(Args.broker a, Args.prefix a)].
Proof.
  rewrite main_eq, resolve_eq.
  destruct (Args.no_discover a).
  - cbn [trace fst app]. apply discoveries_configure.
  - cbv zeta.
    destruct (miniconf_discover w (Args.broker a) (Args.prefix a)) as [e|devices];
      [reflexivity|].
    destruct devices as [|dev [|dev' rest]]; try reflexivity.
    cbn [trace fst app discoveries]. rewrite discoveries_configure. reflexivity.
Qed.

(** X6.  A session is asked for exactly when resolution yields a prefix: then
    once, for that prefix and the broker given; when resolution fails,
    [_main] ends in its exception with no session, no conversion and no
    write. *)
Theorem session_follows_resolution (a : Args.t num) :
  (forall prefix,
      outcome (resolve repr w a) = inr prefix ->
      sessions (trace (_main vt repr w a)) = [(prefix, Args.broker a)]) /\
  (forall e,
      outcome (resolve repr w a) = inl e ->
      outcome (_main vt repr w a) = inl e /\
      sessions (trace (_main vt repr w a)) = [] /\
      conversions (trace (_main vt repr w a)) = [] /\
      writes (trace (_main vt repr w a)) = []).
Proof.
  rewrite main_eq, resolve_eq.
  destruct (Args.no_discover a); cbn [outcome trace fst snd].
  - split; [|discriminate]. intros prefix [= <-]. apply sessions_configure.
  - cbv zeta.
    destruct (miniconf_discover w (Args.broker a) (Args.prefix a)) as [e0|devices];
      cbn [fst snd].
    + split; [discriminate|]. intros e [= <-]. repeat split.
    + destruct devices as [|dev [|dev' rest]]; cbn [fst snd].
      * split; [discriminate|]. intros e [= <-]. repeat split.
      * split; [|discriminate]. intros prefix [= <-].
        cbn [sessions app]. apply sessions_configure.
      * split; [discriminate|]. intros e [= <-]. repeat split.
Qed.

End Resolution.

(** ** The transaction, case by case *)

Section Transaction.

Context {num : Type}.
Variable vt : num -> exn + Z.
Variable repr : list string -> string.
Variable w : world num.

(** The three ways a run of [configure] goes: the session fails; a
    conversion raises; or the write is issued and the device answers. *)
Lemma configure_cases (a : Args.t num) (prefix : string) :
  (exists e,
      Miniconf_create w prefix (Args.broker a) = inl e /\
      configure vt w a prefix =
        ([EvLog "Connecting to broker" []; EvCreate prefix (Args.broker a)], inl e)) \/
  (exists itf e,
      Miniconf_create w prefix (Args.broker a) = inr itf /\
      first_error vt (voltages a) = Some e /\
      outcome (configure vt w a prefix) = inl e /\
      writes (trace (configure vt w a prefix)) = []) \/
  (exists itf v,
      Miniconf_create w prefix (Args.broker a) = inr itf /\
      first_error vt (voltages a) = None /\
      outcome (configure vt w a prefix) =
        interface_set w itf (config_path (Args.channel a)) v /\
      writes (trace (configure vt w a prefix)) =
        [(config_path (Args.channel a), v)] /\
      exists t,
        trace (configure vt w a prefix) =
          t ++ [EvSet (config_path (Args.channel a)) v] /\
        writes t = []).
Proof.
  rewrite configure_eq. unfold voltages. cbn [first_error].
  destruct (Miniconf_create w prefix (Args.broker a)) as [e|itf];
    [left; exists e; split; reflexivity|]. right.
  destruct (vt (Args.x_offset a)) as [e|mx];
    [left; exists itf, e; repeat split|].
  destruct (vt (Args.y_offset a)) as [e|my];
    [left; exists itf, e; repeat split|].
  destruct (vt (Args.y_min a)) as [e|mmin];
    [left; exists itf, e; repeat split|].
  destruct (vt (Args.y_max a)) as [e|mmax];
    [left; exists itf, e; repeat split|].
  destruct (vt (Args.i_limit a)) as [e|ml];
    [left; exists itf, e; repeat split|].
  right. exists itf, (pid_settings a mx my mmin mmax ml).
  repeat split. eexists. split; reflexivity.
Qed.

(** X7.  When [Miniconf.create] raises, [configure] ends in that exception as it
    is, after the log line and the request for the session: no voltage is
    converted and nothing is written. *)
Theorem session_failure_stops_configure
    (a : Args.t num) (prefix : string) (e : exn) :
  Miniconf_create w prefix (Args.broker a) = inl e ->
  configure vt w a prefix =
    ([EvLog "Connecting to broker" []; EvCreate prefix (Args.broker a)], inl e) /\
  conversions (trace (configure vt w a prefix)) = [] /\
  writes (trace (configure vt w a prefix)) = [].
Proof.
  intro Hc. rewrite configure_eq, Hc. repeat split.
Qed.

(** X8.  [configure] issues its write exactly when the session is created and
    none of the five conversions raises. *)
Theorem write_issued_iff (a : Args.t num) (prefix : string) :
  writes (trace (configure vt w a prefix)) <> [] <->
  (exists itf, Miniconf_create w prefix (Args.broker a) = inr itf) /\
  first_error vt (voltages a) = None.
Proof.
  destruct (configure_cases a prefix)
    as [(e & Hc & E) | [(itf & e & Hc & Hf & _ & Hw) | (itf & v & Hc & Hf & _ & Hw & _)]].
  - rewrite E, Hc. cbn [trace fst writes]. split.
    + intro H. now contradiction H.
    + intros [[itf H] _]. discriminate H.
  - rewrite Hw, Hf. split.
    + intro H. now contradiction H.
    + intros [_ H]. discriminate H.
  - rewrite Hw, Hf. split.
    + intros _. split; [exists itf; exact Hc | reflexivity].
    + intros _. discriminate.
Qed.

(** X9.  Once the session is created, the voltages are converted in the order
    [x_offset], [y_offset], [y_min], [y_max], [i_limit], each at most once,
    up to and including the first on which the conversion raises; without a
    session none is converted. *)
Theorem conversions_in_order (a : Args.t num) (prefix : string) :
  conversions (trace (configure vt w a prefix)) =
    match Miniconf_create w prefix (Args.broker a) with
    | inl _ => []
    | inr _ => attempted vt (voltages a)
    end /\
  (length (conversions (trace (configure vt w a prefix))) <= 5)%nat.
Proof.
  rewrite configure_eq. unfold voltages. cbn [attempted].
  destruct (Miniconf_create w prefix (Args.broker a)) as [e|itf];
    [split; [reflexivity | cbn; lia]|].
  destruct (vt (Args.x_offset a)) as [e|mx]; [split; [reflexivity | cbn; lia]|].
  destruct (vt (Args.y_offset a)) as [e|my]; [split; [reflexivity | cbn; lia]|].
  destruct (vt (Args.y_min a)) as [e|mmin]; [split; [reflexivity | cbn; lia]|].
  destruct (vt (Args.y_max a)) as [e|mmax]; [split; [reflexivity | cbn; lia]|].
  destruct (vt (Args.i_limit a)) as [e|ml]; split; try reflexivity; cbn; lia.
Qed.

(** X10.  When the session is created and a conversion raises, [configure] ends in
    the exception of the first voltage, in the order of the dict, on which
    it raises, and nothing is written although the session is open. *)
Theorem first_failing_conversion_decides
    (a : Args.t num) (prefix : string) (itf : interface) (e : exn) :
  Miniconf_create w prefix (Args.broker a) = inr itf ->
  first_error vt (voltages a) = Some e ->
  outcome (configure vt w a prefix) = inl e /\
  sessions (trace (configure vt w a prefix)) = [(prefix, Args.broker a)] /\
  writes (trace (configure vt w a prefix)) = [].
Proof.
  intros Hc Hf. rewrite sessions_configure.
  destruct (configure_cases a prefix)
    as [(e' & Hc' & _) | [(itf' & e' & _ & Hf' & Ho & Hw) | (itf' & v & _ & Hf' & _)]].
  - rewrite Hc in Hc'. discriminate Hc'.
  - rewrite Hf in Hf'. injection Hf' as <-. repeat split; assumption.
  - rewrite Hf in Hf'. discriminate Hf'.
Qed.

(** X11.  When the session is created and the five conversions return,
    [configure] issues one write, the last event of its trace, on the
    interface that [Miniconf.create] returned, and its outcome is what that
    write returns or raises: a rejection by the device is the exception of
    [configure], with no second attempt. *)
Theorem outcome_is_the_answer_to_the_write
    (a : Args.t num) (prefix : string) (itf : interface) :
  Miniconf_create w prefix (Args.broker a) = inr itf ->
  first_error vt (voltages a) = None ->
  exists v t,
    trace (configure vt w a prefix) =
      t ++ [EvSet (config_path (Args.channel a)) v] /\
    writes t = [] /\
    outcome (configure vt w a prefix) =
      interface_set w itf (config_path (Args.channel a)) v.
Proof.
  intros Hc Hf.
  destruct (configure_cases a prefix)
    as [(e' & Hc' & _) | [(itf' & e' & _ & Hf' & _) |
                          (itf' & v & Hc' & _ & Ho & _ & t & Et & Ew)]].
  - rewrite Hc in Hc'. discriminate Hc'.
  - rewrite Hf in Hf'. discriminate Hf'.
  - rewrite Hc in Hc'. injection Hc' as <-. exists v, t. repeat split; assumption.
Qed.

(** X12.  An invocation that ends without an exception has resolved a prefix,
    opened a session on it, and issued exactly one write, to the path of the
    channel given, which the device acknowledged. *)
Theorem acknowledged_run_wrote_once (a : Args.t num) :
  outcome (_main vt repr w a) = inr tt ->
  exists prefix itf v,
    outcome (resolve repr w a) = inr prefix /\
    Miniconf_create w prefix (Args.broker a) = inr itf /\
    writes (trace (_main vt repr w a)) = [(config_path (Args.channel a), v)] /\
    interface_set w itf (config_path (Args.channel a)) v = inr tt.
Proof.
  rewrite main_eq. pose proof (writes_resolve repr w a) as Hr.
  destruct (resolve repr w a) as [t [e|prefix]]; cbn [outcome trace fst snd] in *;
    [discriminate|].
  intro Hack. rewrite writes_app, Hr. cbn [app].
  destruct (configure_cases a prefix)
    as [(e & _ & E) | [(itf & e & _ & _ & Ho & _) | (itf & v & Hc & _ & Ho & Hw & _)]].
  - rewrite E in Hack. discriminate Hack.
  - rewrite Ho in Hack. discriminate Hack.
  - exists prefix, itf, v. rewrite Ho in Hack.
    repeat split; assumption.
Qed.

(** X13.  Every exception in which an invocation ends comes from one of six
    places: discovery raised it; discovery returned no address; discovery
    returned several; the session could not be created; a conversion raised
    it; or the write did.  The script raises nothing else. *)
Theorem failure_taxonomy (a : Args.t num) (e : exn) :
  outcome (_main vt repr w a) = inl e ->
  (Args.no_discover a = false /\
   miniconf_discover w (Args.broker a) (Args.prefix a) = inl e) \/
  (Args.no_discover a = false /\
   miniconf_discover w (Args.broker a) (Args.prefix a) = inr [] /\
   e = NoDeviceFound) \/
  (Args.no_discover a = false /\
   exists devices,
     miniconf_discover w (Args.broker a) (Args.prefix a) = inr devices /\
     (2 <= length devices)%nat /\
     e = AmbiguousDeviceMatch repr devices) \/
  (exists prefix,
      outcome (resolve repr w a) = inr prefix /\
      Miniconf_create w prefix (Args.broker a) = inl e) \/
  (exists prefix itf,
      outcome (resolve repr w a) = inr prefix /\
      Miniconf_create w prefix (Args.broker a) = inr itf /\
      first_error vt (voltages a) = Some e) \/
  (exists prefix itf v,
      outcome (resolve repr w a) = inr prefix /\
      Miniconf_create w prefix (Args.broker a) = inr itf /\
      first_error vt (voltages a) = None /\
      writes (trace (_main vt repr w a)) = [(config_path (Args.channel a), v)] /\
      interface_set w itf (config_path (Args.channel a)) v = inl e).
Proof.
  assert (Hcfg : forall t prefix,
            resolve repr w a = (t, inr prefix) ->
            writes t = [] ->
            outcome (_main vt repr w a) = inl e ->
            (exists prefix,
                outcome (resolve repr w a) = inr prefix /\
                Miniconf_create w prefix (Args.broker a) = inl e) \/
            (exists prefix itf,
                outcome (resolve repr w a) = inr prefix /\
                Miniconf_create w prefix (Args.broker a) = inr itf /\
                first_error vt (voltages a) = Some e) \/
            (exists prefix itf v,
                outcome (resolve repr w a) = inr prefix /\
                Miniconf_create w prefix (Args.broker a) = inr itf /\
                first_error vt (voltages a) = None /\
                writes (trace (_main vt repr w a)) =
                  [(config_path (Args.channel a), v)] /\
                interface_set w itf (config_path (Args.channel a)) v = inl e)).
  { intros t prefix Er Ht. rewrite main_eq, Er. cbn [outcome trace fst snd].
    rewrite writes_app, Ht. cbn [app]. intro Hfail.
    destruct (configure_cases a prefix)
      as [(e' & Hc & E) | [(itf & e' & Hc & Hf & Ho & _) |
                           (itf & v & Hc & Hf & Ho & Hw & _)]].
    - rewrite E in Hfail. injection Hfail as <-. left. exists prefix. now split.
    - rewrite Ho in Hfail. injection Hfail as <-.
      right; left. exists prefix, itf. now repeat split.
    - rewrite Ho in Hfail.
      right; right. exists prefix, itf, v. now repeat split. }
  intro Hfail. pose proof (resolve_eq repr w a) as Er.
  destruct (Args.no_discover a).
  - do 3 right. apply (Hcfg [] (Args.prefix a) Er eq_refl Hfail).
  - cbv zeta in Er.
    destruct (miniconf_discover w (Args.broker a) (Args.prefix a)) as [e0|devices].
    + rewrite main_eq, Er in Hfail. injection Hfail as <-. left. now split.
    + destruct devices as [|dev [|dev' rest]].
      * rewrite main_eq, Er in Hfail. injection Hfail as <-.
        right; left. now repeat split.
      * do 3 right. apply (Hcfg _ dev Er eq_refl Hfail).
      * rewrite main_eq, Er in Hfail. injection Hfail as <-.
        right; right; left. split; [reflexivity|].
        eexists. repeat split. cbn [length]. lia.
Qed.

(** X14.  What [configure] writes does not depend on the network nor on the
    device addressed: two runs on the same arguments, over any two networks
    and prefixes, that both issue a write issue the same one, path and
    value. *)
Theorem written_value_independent_of_network
    (w' : world num) (a : Args.t num) (prefix prefix' : string)
    (x y : string * payload num) :
  In x (writes (trace (configure vt w a prefix))) ->
  In y (writes (trace (configure vt w' a prefix'))) ->
  x = y.
Proof.
  intros Hx Hy.
  destruct (writes_configure vt w a prefix)
    as [E | (itf & mx & my & mmin & mmax & ml & _ & Hx1 & Hx2 & Hx3 & Hx4 & Hx5 & E & _)];
    rewrite E in Hx; [contradiction|].
  destruct (writes_configure vt w' a prefix')
    as [E' | (itf' & mx' & my' & mmin' & mmax' & ml' & _ & Hy1 & Hy2 & Hy3 & Hy4 & Hy5 & E' & _)];
    rewrite E' in Hy; [contradiction|].
  destruct Hx as [<-|[]]. destruct Hy as [<-|[]].
  congruence.
Qed.

(** X15.  Two channels never share a configuration path: the path determines the
    channel. *)
Theorem distinct_channels_distinct_paths (c c' : Z) :
  c <> c' -> config_path c <> config_path c'.
Proof.
  intros Hne H. apply Hne. now apply config_path_inj.
Qed.

End Transaction.

(** ** Resolution and transaction on concrete runs *)

Lemma unique_device_is_configured_witness :
  Args.no_discover Example.args = false /\
  miniconf_discover (Example.net [Example.device]) (Args.broker Example.args)
                    (Args.prefix Example.args) = inr [Example.device] /\
  sessions (trace (_main Example.to_machine_units repr_list
                         (Example.net [Example.device]) Example.args)) =
    [(Example.device, "mqtt")].
Proof.
  split; [reflexivity | split; [reflexivity|]].
  exact (proj2 (proj2 (unique_device_is_configured Example.to_machine_units
                         repr_list (Example.net [Example.device])
                         Example.args Example.device eq_refl eq_refl))).
Defined.

Lemma wildcard_run_equals_exact_run_witness :
  Args.no_discover Example.args = false /\
  miniconf_discover (Example.net [Example.device]) (Args.broker Example.args)
                    (Args.prefix Example.args) = inr [Example.device] /\
  writes (trace (_main Example.to_machine_units repr_list
                       (Example.net [Example.device]) Example.args)) =
    writes (trace (_main Example.to_machine_units repr_list
                         (Example.net [Example.device])
                         (Args.exact Example.device Example.args))).
Proof.
  split; [reflexivity | split; [reflexivity|]].
  exact (proj1 (proj2 (proj2 (wildcard_run_equals_exact_run
                                Example.to_machine_units repr_list
                                (Example.net [Example.device]) Example.args
                                Example.device eq_refl eq_refl)))).
Defined.

Lemma resolve_succeeds_iff_witness :
  (Args.no_discover Example.args = false /\
   miniconf_discover (Example.net [Example.device]) (Args.broker Example.args)
                     (Args.prefix Example.args) = inr [Example.device]) /\
  outcome (resolve repr_list (Example.net [Example.device]) Example.args) =
    inr Example.device.
Proof.
  assert (H : Args.no_discover Example.args = false /\
              miniconf_discover (Example.net [Example.device])
                                (Args.broker Example.args)
                                (Args.prefix Example.args) = inr [Example.device])
    by (split; reflexivity).
  split; [exact H|].
  exact (proj2 (resolve_succeeds_iff repr_list
                  (Example.net [Example.device]) Example.args Example.device)
               (or_intror H)).
Defined.

Lemma discovery_error_propagates_witness :
  Args.no_discover Example.args = false /\
  miniconf_discover Example.silent (Args.broker Example.args)
                    (Args.prefix Example.args) =
    inl (Exn "MqttError" "connection refused") /\
  _main Example.to_machine_units repr_list Example.silent Example.args =
    ([EvDiscover "mqtt" "dt/sinara/dual-pid/+"],
     inl (Exn "MqttError" "connection refused")).
Proof.
  split; [reflexivity | split; [reflexivity|]].
  exact (proj1 (discovery_error_propagates Example.to_machine_units
                  repr_list Example.silent Example.args
                  (Exn "MqttError" "connection refused") eq_refl eq_refl)).
Defined.

Lemma session_follows_resolution_witness :
  outcome (resolve repr_list (Example.net []) Example.args) =
    inl NoDeviceFound /\
  sessions (trace (_main Example.to_machine_units repr_list
                         (Example.net []) Example.args)) = [] /\
  outcome (resolve repr_list (Example.net []) Example.exact_args) =
    inr Example.device /\
  sessions (trace (_main Example.to_machine_units repr_list
                         (Example.net []) Example.exact_args)) =
    [(Example.device, "mqtt")].
Proof.
  split; [reflexivity | split; [|split; [reflexivity|]]].
  - exact (proj1 (proj2 (proj2 (session_follows_resolution
                                  Example.to_machine_units repr_list
                                  (Example.net []) Example.args)
                               NoDeviceFound eq_refl))).
  - exact (proj1 (session_follows_resolution Example.to_machine_units
                    repr_list (Example.net []) Example.exact_args)
                 Example.device eq_refl).
Defined.

Lemma session_failure_stops_configure_witness :
  Miniconf_create Example.unreachable Example.device
                  (Args.broker Example.exact_args) =
    inl (Exn "MqttError" "connection refused") /\
  conversions (trace (configure Example.to_machine_units Example.unreachable
                                Example.exact_args Example.device)) = [] /\
  writes (trace (configure Example.to_machine_units Example.unreachable
                           Example.exact_args Example.device)) = [].
Proof.
  split; [reflexivity|].
  exact (proj2 (session_failure_stops_configure Example.to_machine_units
                  Example.unreachable Example.exact_args Example.device
                  (Exn "MqttError" "connection refused") eq_refl)).
Defined.

Lemma write_issued_iff_witness :
  ((exists itf, Miniconf_create (Example.net []) Example.device
                                (Args.broker Example.exact_args) = inr itf) /\
   first_error Example.to_machine_units (voltages Example.exact_args) = None) /\
  writes (trace (configure Example.to_machine_units (Example.net [])
                           Example.exact_args Example.device)) <> [].
Proof.
  assert (H : (exists itf, Miniconf_create (Example.net []) Example.device
                             (Args.broker Example.exact_args) = inr itf) /\
              first_error Example.to_machine_units (voltages Example.exact_args) =
                None).
  { split; [eexists; reflexivity | reflexivity]. }
  split; [exact H|].
  exact (proj2 (write_issued_iff Example.to_machine_units (Example.net [])
                  Example.exact_args Example.device) H).
Defined.

Lemma first_failing_conversion_decides_witness :
  Miniconf_create (Example.net []) Example.device (Args.broker Example.odd_args) =
    inr (Interface Example.device "mqtt") /\
  first_error Example.bounded (voltages Example.odd_args) =
    Some (ValueError "Voltage out-of-range") /\
  outcome (configure Example.bounded (Example.net []) Example.odd_args
                     Example.device) =
    inl (ValueError "Voltage out-of-range") /\
  sessions (trace (configure Example.bounded (Example.net []) Example.odd_args
                             Example.device)) = [(Example.device, "mqtt")] /\
  writes (trace (configure Example.bounded (Example.net []) Example.odd_args
                           Example.device)) = [].
Proof.
  split; [reflexivity | split; [reflexivity|]].
  exact (first_failing_conversion_decides Example.bounded (Example.net [])
           Example.odd_args Example.device (Interface Example.device "mqtt")
           (ValueError "Voltage out-of-range") eq_refl eq_refl).
Defined.

Lemma outcome_is_the_answer_to_the_write_witness :
  Miniconf_create Example.rejecting Example.device
                  (Args.broker Example.exact_args) =
    inr (Interface Example.device "mqtt") /\
  first_error Example.to_machine_units (voltages Example.exact_args) = None /\
  outcome (configure Example.to_machine_units Example.rejecting
                     Example.exact_args Example.device) =
    inl (Exn "MiniconfException" "rejected").
Proof.
  split; [reflexivity | split; [reflexivity|]].
  destruct (outcome_is_the_answer_to_the_write Example.to_machine_units
              Example.rejecting Example.exact_args Example.device
              (Interface Example.device "mqtt") eq_refl eq_refl)
    as (v & t & _ & _ & Ho).
  exact Ho.
Defined.

Lemma acknowledged_run_wrote_once_witness :
  outcome (_main Example.to_machine_units repr_list
                 (Example.net [Example.device]) Example.args) = inr tt /\
  exists v,
    writes (trace (_main Example.to_machine_units repr_list
                         (Example.net [Example.device]) Example.args)) =
      [("/pid_ch/0", v)].
Proof.
  split; [reflexivity|].
  destruct (acknowledged_run_wrote_once Example.to_machine_units repr_list
              (Example.net [Example.device]) Example.args eq_refl)
    as (prefix & itf & v & _ & _ & Hw & _).
  exists v. exact Hw.
Defined.

Lemma failure_taxonomy_witness :
  outcome (_main Example.to_machine_units repr_list Example.rejecting
                 Example.exact_args) =
    inl (Exn "MiniconfException" "rejected") /\
  exists v,
    writes (trace (_main Example.to_machine_units repr_list
                         Example.rejecting Example.exact_args)) =
      [("/pid_ch/0", v)].
Proof.
  split; [reflexivity|].
  destruct (failure_taxonomy Example.to_machine_units repr_list
              Example.rejecting Example.exact_args
              (Exn "MiniconfException" "rejected") eq_refl)
    as [[H _] | [[H _] | [[H _] | [(p & _ & H) | [(p & itf & _ & _ & H) |
                                   (p & itf & v & _ & _ & _ & Hw & _)]]]]].
  - discriminate H.
  - discriminate H.
  - discriminate H.
  - discriminate H.
  - discriminate H.
  - exists v. exact Hw.
Defined.

Lemma distinct_channels_distinct_paths_witness :
  0 <> 1 /\ config_path 0 <> config_path 1.
Proof.
  assert (H : 0 <> 1) by discriminate.
  split; [exact H|].
  exact (distinct_channels_distinct_paths 0 1 H).
Defined.

Lemma written_value_independent_of_network_witness :
  In ("/pid_ch/0", Example.settings)
     (writes (trace (configure Example.to_machine_units (Example.net [])
                               Example.exact_args Example.device))) /\
  In ("/pid_ch/0", Example.settings)
     (writes (trace (configure Example.to_machine_units Example.rejecting
                               Example.exact_args Example.device'))) /\
  ("/pid_ch/0", Example.settings) = ("/pid_ch/0", Example.settings).
Proof.
  assert (Hx : In ("/pid_ch/0", Example.settings)
                  (writes (trace (configure Example.to_machine_units (Example.net [])
                                            Example.exact_args Example.device)))).
  { vm_compute. left. reflexivity. }
  assert (Hy : In ("/pid_ch/0", Example.settings)
                  (writes (trace (configure Example.to_machine_units
                                            Example.rejecting Example.exact_args
                                            Example.device')))).
  { vm_compute. left. reflexivity. }
  split; [exact Hx | split; [exact Hy|]].
  exact (written_value_independent_of_network Example.to_machine_units
           (Example.net []) Example.rejecting Example.exact_args Example.device
           Example.device' _ _ Hx Hy).
Defined.
